(** * Telemetry server (app.py): enrichment, store, fan-out, source switch

    A shallow embedding of [app.py].  Python values decoded from JSON are an
    inductive type, dictionaries are finite maps with string keys, the set
    of websocket clients is a finite set, the sqlite table is the list of
    its rows in insertion order, and floats are IEEE 754 binary64 values
    with the arithmetic of [SpecFloat].  Code that can raise returns a
    [result].

    The coroutines ([serial_reader], [simulation_runner], the request
    handlers) are modelled as step functions on one shared [world]: a step
    is what a coroutine does when the event loop schedules it, and a run is
    any interleaving of steps.  What the outside world answers during a step
    (the clock, the serial port, the database file, each websocket) is read
    from an [env]. *)

From Stdlib Require Import ZArith Ascii SpecFloat.
From stdpp Require Import gmap strings list fin_maps sorting.

#[local] Set Warnings "-register-all".
#[local] Open Scope Z_scope.

(** ** Python values and builtins *)

Module Py.

(** The exceptions that the modelled code can meet. *)
Inductive exn :=
| TypeError
| ValueError
| OverflowError
| AttributeError
| SerialException
| SqliteError
| RuntimeError
| WebSocketDisconnect.

Inductive result (A : Type) :=
| Ok (a : A)
| Raise (e : exn).
Arguments Ok {A} a.
Arguments Raise {A} e.

#[global] Instance result_ret : MRet result := λ A a, Ok a.
#[global] Instance result_bind : MBind result := λ A B f r,
  match r with
  | Ok a => f a
  | Raise e => Raise e
  end.

Definition is_ok {A} (r : result A) : bool :=
  match r with Ok _ => true | Raise _ => false end.

(** Python floats are binary64. *)
Abbreviation float := spec_float.
Definition prec : Z := 53.
Definition emax : Z := 1024.
Definition fmul : float → float → float := SFmul prec emax.

(** What [json.loads] can return. *)
Inductive value :=
| PNone
| PBool (b : bool)
| PInt (n : Z)
| PFloat (f : float)
| PStr (s : string)
| PList (l : list value)
| PDict (d : gmap string value).

Abbreviation dict := (gmap string value).

Definition is_none (v : value) : bool :=
  match v with PNone => true | _ => false end.

(** [d.get(k)] and [d.get(k, dflt)]: a key bound to [None] is returned as
    [None], the default is used only when the key is missing. *)
Definition get (d : dict) (k : string) : value := default PNone (d !! k).
Definition get_or (d : dict) (k : string) (dflt : value) : value :=
  default dflt (d !! k).

(** Truth value of a dictionary: [if d:] holds when [d] is not empty. *)
Definition truthy (d : dict) : bool := negb (bool_decide (d = ∅)).

(** [int(str)] and [float(str)] parse text by rules that depend on Unicode
    tables; they are kept as an interface. *)
Class Parsers := {
  int_of_str : string → option Z;
  float_of_str : string → option float
}.

(** [float(n)] for an integer: the nearest binary64 (ties to even),
    [OverflowError] when that is beyond the largest finite float. *)
Definition float_of_Z (n : Z) : result float :=
  match binary_normalize prec emax n 0 false with
  | S754_infinity _ => Raise OverflowError
  | f => Ok f
  end.

(** [int(f)] for a float: truncation toward zero. *)
Definition Z_of_float (f : float) : result Z :=
  match f with
  | S754_nan => Raise ValueError
  | S754_infinity _ => Raise OverflowError
  | S754_zero _ => Ok 0
  | S754_finite s m e => Ok (cond_Zopp s (Z.shiftl (Zpos m) e))
  end.

Section Builtins.
Context `{Parsers}.

Definition int (v : value) : result Z :=
  match v with
  | PNone => Raise TypeError
  | PBool b => Ok (Z.b2z b)
  | PInt n => Ok n
  | PFloat f => Z_of_float f
  | PStr s => match int_of_str s with Some n => Ok n | None => Raise ValueError end
  | PList _ => Raise TypeError
  | PDict _ => Raise TypeError
  end.

Definition float_ (v : value) : result float :=
  match v with
  | PNone => Raise TypeError
  | PBool b => float_of_Z (Z.b2z b)
  | PInt n => float_of_Z n
  | PFloat f => Ok f
  | PStr s => match float_of_str s with Some f => Ok f | None => Raise ValueError end
  | PList _ => Raise TypeError
  | PDict _ => Raise TypeError
  end.
End Builtins.

(** A parser for the strings of the examples: an optional sign followed by
    ASCII decimal digits. *)
Definition digit_of (c : Ascii.ascii) : option Z :=
  let n := Z.of_nat (Ascii.nat_of_ascii c) in
  if bool_decide (48 ≤ n ≤ 57) then Some (n - 48) else None.

Fixpoint digits_of (s : string) (acc : Z) : option Z :=
  match s with
  | EmptyString => Some acc
  | String c s' =>
      match digit_of c with
      | Some d => digits_of s' (10 * acc + d)
      | None => None
      end
  end.

Definition unsigned_of (s : string) : option Z :=
  match s with
  | EmptyString => None
  | _ => digits_of s 0
  end.

Definition ascii_int (s : string) : option Z :=
  match s with
  | String "-"%char s' => Z.opp <$> unsigned_of s'
  | String "+"%char s' => unsigned_of s'
  | _ => unsigned_of s
  end.

Definition ascii_parsers : Parsers := {|
  int_of_str := ascii_int;
  float_of_str := λ s,
    match ascii_int s with
    | Some n => match float_of_Z n with Ok f => Some f | Raise _ => None end
    | None => None
    end
|}.

End Py.

Import Py.

(** ** Configuration *)

(** The three constants of the torque model, read from the environment at
    start-up. *)
Class Config := {
  K_T_NM_PER_AMP : float;
  GEAR_RATIO : float;
  DRIVETRAIN_EFF : float
}.

(** The defaults [0.06], [10.0] and [0.9] as binary64 values. *)
Definition default_config : Config := {|
  K_T_NM_PER_AMP := S754_finite false 8646911284551352 (-57);
  GEAR_RATIO := S754_finite false 5629499534213120 (-49);
  DRIVETRAIN_EFF := S754_finite false 8106479329266893 (-53)
|}.

(** ** Telemetry parsing / enrichment *)

Section Enrichment.
Context `{Parsers} `{Config}.

(** [now] is [int(time.time() * 1000)] at the time of the call. *)
Definition enrich_sample (now : Z) (raw : dict) : result dict :=
  let t_val := get raw "t" in
  let t_val := if is_none t_val then PInt now else t_val in
  t_ms ← int t_val;
  lap ← int (get_or raw "lap" (PInt 0));
  let V := get raw "V" in
  let A := get raw "A" in
  let Ah := get raw "Ah" in
  let mph := get raw "mph" in
  let torque := get raw "torque" in
  let torque :=
    if is_none torque && negb (is_none A) then
      match float_ A with
      | Ok a => PFloat (fmul (fmul (fmul a K_T_NM_PER_AMP) GEAR_RATIO) DRIVETRAIN_EFF)
      | Raise _ => PNone
      end
    else torque in
  let lat := get raw "lat" in
  let lon := get raw "lon" in
  mret (list_to_map [
    ("t_ms", PInt t_ms);
    ("lap", PInt lap);
    ("V", V);
    ("A", A);
    ("Ah", Ah);
    ("mph", mph);
    ("torque", torque);
    ("lat", lat);
    ("lon", lon)
  ]).
End Enrichment.

(** ** Database helpers *)

(** What sqlite3 stores for a bound parameter.  The table is not modelled
    below the level of its rows: column affinity does not change a row's
    [lap] or [t_ms], which are bound as integers. *)
Inductive sqlval :=
| SqlNull
| SqlInteger (n : Z)
| SqlReal (f : float)
| SqlText (s : string).

(** Binding a Python value as a statement parameter: integers must fit in
    64 bits, lists and dictionaries are not supported. *)
Definition sql_bind (v : value) : result sqlval :=
  match v with
  | PNone => Ok SqlNull
  | PBool b => Ok (SqlInteger (Z.b2z b))
  | PInt n =>
      if bool_decide (- 2 ^ 63 ≤ n < 2 ^ 63) then Ok (SqlInteger n)
      else Raise OverflowError
  | PFloat f => Ok (SqlReal f)
  | PStr s => Ok (SqlText s)
  | PList _ => Raise SqliteError
  | PDict _ => Raise SqliteError
  end.

(** A row of table [samples]. *)
Record row := {
  row_id : Z;
  row_t_ms : Z;
  row_lap : Z;
  row_V : sqlval;
  row_A : sqlval;
  row_Ah : sqlval;
  row_mph : sqlval;
  row_torque : sqlval;
  row_lat : sqlval;
  row_lon : sqlval
}.

(** [SELECT MAX(x)]: [NULL] on no rows. *)
Definition sql_max (xs : list Z) : option Z :=
  foldr (λ x acc, Some (from_option (Z.max x) x acc)) None xs.

Section Store.
Context `{Parsers}.

(** [db_up] tells whether the database file can be opened and written
    during this call; [tbl] is the table before the call. *)
Definition insert_sample (db_up : bool) (s : dict) (tbl : list row)
  : result (list row) :=
  if negb db_up then Raise SqliteError else
  t_ms ← int (get_or s "t_ms" (PInt 0));
  lap ← int (get_or s "lap" (PInt 0));
  _ ← sql_bind (PInt t_ms);
  _ ← sql_bind (PInt lap);
  V ← sql_bind (get s "V");
  A ← sql_bind (get s "A");
  Ah ← sql_bind (get s "Ah");
  mph ← sql_bind (get s "mph");
  torque ← sql_bind (get s "torque");
  lat ← sql_bind (get s "lat");
  lon ← sql_bind (get s "lon");
  mret (tbl ++ [{|
    row_id := Z.of_nat (length tbl) + 1;
    row_t_ms := t_ms; row_lap := lap;
    row_V := V; row_A := A; row_Ah := Ah; row_mph := mph;
    row_torque := torque; row_lat := lat; row_lon := lon
  |}]).
End Store.

(** [SELECT DISTINCT lap FROM samples ORDER BY lap ASC] *)
Definition get_laps (tbl : list row) : list Z :=
  merge_sort Z.le (remove_dups (row_lap <$> tbl)).

(** [SELECT MAX(lap) AS maxlap FROM samples], [0] when it is [NULL]. *)
Definition get_latest_lap (tbl : list row) : Z :=
  match sql_max (row_lap <$> tbl) with
  | Some maxlap => maxlap
  | None => 0
  end.



(** *** Per-lap queries *)

(** A NaN bound to a column is stored as [NULL]. *)
Definition sql_stored_null (v : sqlval) : bool :=
  match v with
  | SqlNull => true
  | SqlReal S754_nan => true
  | _ => false
  end.

(** [ORDER BY t_ms ASC]; SQL leaves the order of equal timestamps open. *)
Definition t_ms_le (r1 r2 : row) : Prop := row_t_ms r1 ≤ row_t_ms r2.

#[global] Instance t_ms_le_dec : RelDecision t_ms_le :=
  λ r1 r2, decide (row_t_ms r1 ≤ row_t_ms r2).

Definition order_by_t_ms (rows : list row) : list row :=
  merge_sort t_ms_le rows.

(** The columns that [get_lap_timeseries] and [get_lap_gps] select; the
    value columns are given as the row holds them. *)
Record series_point := {
  sp_t_ms : Z;
  sp_V : sqlval;
  sp_A : sqlval;
  sp_mph : sqlval;
  sp_torque : sqlval
}.

Record gps_point := {
  gp_t_ms : Z;
  gp_lat : sqlval;
  gp_lon : sqlval
}.

Definition series_of (r : row) : series_point :=
  {| sp_t_ms := row_t_ms r; sp_V := row_V r; sp_A := row_A r;
     sp_mph := row_mph r; sp_torque := row_torque r |}.

Definition gps_of (r : row) : gps_point :=
  {| gp_t_ms := row_t_ms r; gp_lat := row_lat r; gp_lon := row_lon r |}.

(** [WHERE lap = ?] *)
Definition in_lap (lap : Z) (r : row) : Prop := row_lap r = lap.

(** [WHERE lap = ? AND lat IS NOT NULL AND lon IS NOT NULL] *)
Definition has_fix (lap : Z) (r : row) : Prop :=
  row_lap r = lap
  ∧ sql_stored_null (row_lat r) = false
  ∧ sql_stored_null (row_lon r) = false.

#[global] Instance in_lap_dec lap r : Decision (in_lap lap r) :=
  decide (row_lap r = lap).

#[global] Instance has_fix_dec lap r : Decision (has_fix lap r) :=
  decide (row_lap r = lap
          ∧ sql_stored_null (row_lat r) = false
          ∧ sql_stored_null (row_lon r) = false).

(** [SELECT t_ms, V, A, mph, torque FROM samples WHERE lap = ?
    ORDER BY t_ms ASC]; the lap is bound as a parameter. *)
Definition get_lap_timeseries (lap : Z) (tbl : list row)
  : result (list series_point) :=
  _ ← sql_bind (PInt lap);
  mret (series_of <$> order_by_t_ms (filter (in_lap lap) tbl)).

(** [SELECT t_ms, lat, lon FROM samples WHERE lap = ? AND lat IS NOT NULL
    AND lon IS NOT NULL ORDER BY t_ms ASC] *)
Definition get_lap_gps (lap : Z) (tbl : list row) : result (list gps_point) :=
  _ ← sql_bind (PInt lap);
  mret (gps_of <$> order_by_t_ms (filter (has_fix lap) tbl)).

(** ** Shared state of the process *)

(** A websocket connection, named by a handle. *)
Abbreviation ws := nat.

(** What [ser.readline()] followed by [json.loads] yields. *)
Inductive line :=
| ReadError
| Blank
| Garbage
| Json (v : value).

(** Calls that leave the process, in the order they are made.  A message is
    the sample itself, [json.dumps] being left out; [r] is the exception the
    send raised, if any. *)
Inductive effect :=
| SerialOpen (ok : bool)
| SerialRead (ln : line)
| WsSend (w : ws) (msg : dict) (r : option exn)
| Sleep (ms : Z).

(** Where [serial_reader] stands between two iterations: at the head of the
    outer loop (no port open) or at the head of the inner loop. *)
Inductive reader_pc := Outer | Inner.

(** A task made by [asyncio.create_task(simulation_runner())]. *)
Inductive runner :=
| Created
| Sleeping (start_time : Z)
| Returned
| Died (e : exn).

(** The module's globals, the table and the tasks.  [trace] and [produced]
    are ghost fields: the calls made so far, and the samples that
    [serial_reader] and [simulation_runner] have built so far. *)
Record world := {
  simulation_mode : bool;
  simulation_task : option nat;
  tasks : list runner;
  latest_sample : dict;
  samples : list row;
  clients : gset ws;
  reader : reader_pc;
  trace : list effect;
  produced : list dict
}.

Definition set_simulation_mode (b : bool) (st : world) : world :=
  {| simulation_mode := b; simulation_task := simulation_task st;
     tasks := tasks st; latest_sample := latest_sample st;
     samples := samples st; clients := clients st; reader := reader st;
     trace := trace st; produced := produced st |}.

Definition create_task (st : world) : world :=
  {| simulation_mode := simulation_mode st;
     simulation_task := Some (length (tasks st));
     tasks := tasks st ++ [Created]; latest_sample := latest_sample st;
     samples := samples st; clients := clients st; reader := reader st;
     trace := trace st; produced := produced st |}.

Definition set_task (i : nat) (r : runner) (st : world) : world :=
  {| simulation_mode := simulation_mode st;
     simulation_task := simulation_task st;
     tasks := <[i := r]> (tasks st); latest_sample := latest_sample st;
     samples := samples st; clients := clients st; reader := reader st;
     trace := trace st; produced := produced st |}.

(** [latest_sample = sample] *)
Definition set_latest_sample (sample : dict) (st : world) : world :=
  {| simulation_mode := simulation_mode st;
     simulation_task := simulation_task st;
     tasks := tasks st; latest_sample := sample;
     samples := samples st; clients := clients st; reader := reader st;
     trace := trace st; produced := produced st ++ [sample] |}.

Definition set_samples (tbl : list row) (st : world) : world :=
  {| simulation_mode := simulation_mode st;
     simulation_task := simulation_task st;
     tasks := tasks st; latest_sample := latest_sample st;
     samples := tbl; clients := clients st; reader := reader st;
     trace := trace st; produced := produced st |}.

Definition set_clients (cs : gset ws) (st : world) : world :=
  {| simulation_mode := simulation_mode st;
     simulation_task := simulation_task st;
     tasks := tasks st; latest_sample := latest_sample st;
     samples := samples st; clients := cs; reader := reader st;
     trace := trace st; produced := produced st |}.

Definition set_reader (pc : reader_pc) (st : world) : world :=
  {| simulation_mode := simulation_mode st;
     simulation_task := simulation_task st;
     tasks := tasks st; latest_sample := latest_sample st;
     samples := samples st; clients := clients st; reader := pc;
     trace := trace st; produced := produced st |}.

Definition set_trace (tr : list effect) (st : world) : world :=
  {| simulation_mode := simulation_mode st;
     simulation_task := simulation_task st;
     tasks := tasks st; latest_sample := latest_sample st;
     samples := samples st; clients := clients st; reader := reader st;
     trace := tr; produced := produced st |}.

Definition emit (es : list effect) (st : world) : world :=
  set_trace (trace st ++ es) st.

(** The process at start-up; the database file may hold rows of earlier
    runs. *)
Definition init (tbl : list row) : world :=
  {| simulation_mode := false; simulation_task := None; tasks := [];
     latest_sample := ∅; samples := tbl; clients := ∅; reader := Outer;
     trace := []; produced := [] |}.

(** The values that [simulation_runner] computes with [math] and [random]
    for one tick, after rounding. *)
Record sim_reading := {
  sim_V : float;
  sim_A : float;
  sim_Ah : float;
  sim_mph : float;
  sim_torque : float;
  sim_lat : float;
  sim_lon : float
}.

(** The answers of the outside world during one step. *)
Record env := {
  now_ms : Z;
  db_up : bool;
  port_ok : bool;
  incoming : line;
  net : ws → option exn;
  reading : sim_reading
}.



(** The send to [w] goes through. *)
Definition link_ok (nt : ws → option exn) (w : ws) : bool :=
  match nt w with None => true | Some _ => false end.

(** ** Broadcast *)

(** One pass of [for ws in clients]: the send is attempted, and the handle
    is put on [dead] when it raises. *)
Definition send_to (nt : ws → option exn) (sample : dict)
    (acc : list effect * list ws) (w : ws) : list effect * list ws :=
  match nt w with
  | None => (acc.1 ++ [WsSend w sample None], acc.2)
  | Some ex => (acc.1 ++ [WsSend w sample (Some ex)], acc.2 ++ [w])
  end.

(** [clients.discard(ws)] for every [ws] in [dead] *)
Definition discard_all (dead : list ws) (cs : gset ws) : gset ws :=
  foldl (λ cs w, cs ∖ {[w]}) cs dead.

(** The loop body holds the only awaits of [broadcast]; the call is taken
    as one step, so the set is not changed by another task while it is
    iterated. *)
Definition broadcast (nt : ws → option exn) (sample : dict) (st : world)
  : world :=
  let '(tr, dead) :=
    foldl (send_to nt sample) (trace st, []) (elements (clients st)) in
  set_clients (discard_all dead (clients st)) (set_trace tr st).

(** Successive calls of [broadcast], each with the state of the
    connections at its time. *)
Definition publish_all (ps : list ((ws → option exn) * dict)) (st : world)
  : world :=
  foldl (λ st p, broadcast p.1 p.2 st) st ps.


(** A generator task that has not finished. *)
Definition live (r : runner) : bool :=
  match r with
  | Created | Sleeping _ => true
  | _ => false
  end.

(** ** Tasks and request handlers *)

Section Tasks.
Context `{Parsers} `{Config}.

(** [raw.get] on a decoded line that is not an object raises
    [AttributeError]. *)
Definition as_dict (v : value) : result dict :=
  match v with
  | PDict d => Ok d
  | _ => Raise AttributeError
  end.

(** [except Exception: await asyncio.sleep(1.0)], back to the outer
    loop. *)
Definition reader_except (st : world) : world :=
  set_reader Outer (emit [Sleep 1000] st).

(** One iteration of a loop of [serial_reader]. *)
Definition serial_reader (e : env) (st : world) : world :=
  match reader st with
  | Outer =>
      if simulation_mode st then emit [Sleep 100] st
      else if port_ok e then set_reader Inner (emit [SerialOpen true] st)
      else reader_except (emit [SerialOpen false] st)
  | Inner =>
      if simulation_mode st then set_reader Outer st
      else
        let st := emit [SerialRead (incoming e)] st in
        match incoming e with
        | ReadError => reader_except st
        | Blank => emit [Sleep 1] st
        | Garbage => st
        | Json v =>
            match as_dict v ≫= enrich_sample (now_ms e) with
            | Raise _ => reader_except st
            | Ok sample =>
                let st := set_latest_sample sample st in
                match insert_sample (db_up e) sample (samples st) with
                | Raise _ => reader_except st
                | Ok tbl => broadcast (net e) sample (set_samples tbl st)
                end
            end
        end
  end.

Definition simulation_duration_ms : Z := 15000.

(** The sample that [simulation_runner] builds at a tick. *)
Definition simulated_sample (t_ms : Z) (r : sim_reading) : dict :=
  list_to_map [
    ("t_ms", PInt t_ms);
    ("lap", PInt 1);
    ("V", PFloat (sim_V r));
    ("A", PFloat (sim_A r));
    ("Ah", PFloat (sim_Ah r));
    ("mph", PFloat (sim_mph r));
    ("torque", PFloat (sim_torque r));
    ("lat", PFloat (sim_lat r));
    ("lon", PFloat (sim_lon r))
  ].

(** One iteration of [while simulation_mode] in task [i], which started at
    [start_time]; leaving the loop clears the flag. *)
Definition simulation_loop (e : env) (i : nat) (start_time : Z) (st : world)
  : world :=
  if simulation_mode st then
    let elapsed_ms := now_ms e - start_time in
    if bool_decide (simulation_duration_ms ≤ elapsed_ms) then
      set_simulation_mode false (set_task i Returned st)
    else
      let sample := simulated_sample (elapsed_ms + start_time) (reading e) in
      let st := set_latest_sample sample st in
      match insert_sample (db_up e) sample (samples st) with
      | Raise ex => set_task i (Died ex) st
      | Ok tbl =>
          set_task i (Sleeping start_time)
            (emit [Sleep 100] (broadcast (net e) sample (set_samples tbl st)))
      end
  else set_simulation_mode false (set_task i Returned st).

Definition simulation_runner (e : env) (i : nat) (st : world) : world :=
  match tasks st !! i with
  | Some Created => simulation_loop e i (now_ms e) st
  | Some (Sleeping start_time) => simulation_loop e i start_time st
  | _ => st
  end.

(** [POST /api/simulation/start]: the new state and the [status] of the
    reply. *)
Definition start_simulation (st : world) : world * string :=
  if negb (simulation_mode st) then
    (create_task (set_simulation_mode true st), "simulation started")
  else (st, "simulation already running").

(** [POST /api/simulation/stop] *)
Definition stop_simulation (st : world) : world * string :=
  if simulation_mode st then
    let st := set_simulation_mode false st in
    let st :=
      match simulation_task st with
      | Some _ => emit [Sleep 200] st
      | None => st
      end in
    (st, "simulation stopped")
  else (st, "simulation not running").

(** [GET /api/simulation/status] *)
Definition get_simulation_status (st : world) : bool := simulation_mode st.


(** [GET /api/laps] *)
Definition api_laps (st : world) : list Z * Z :=
  (get_laps (samples st), get_latest_lap (samples st)).

(** [ws_endpoint] from [accept] to the receive loop.  A send that raises
    [WebSocketDisconnect] is handled by discarding the handle; any other
    exception leaves the handler with the handle still in [clients]. *)
Definition ws_endpoint (e : env) (w : ws) (st : world) : world :=
  let st := set_clients ({[w]} ∪ clients st) st in
  if truthy (latest_sample st) then
    let st := emit [WsSend w (latest_sample st) (net e w)] st in
    match net e w with
    | Some WebSocketDisconnect => set_clients (clients st ∖ {[w]}) st
    | _ => st
    end
  else st.

(** [receive_text] raises [WebSocketDisconnect] when the peer goes away. *)
Definition ws_disconnect (w : ws) (st : world) : world :=
  set_clients (clients st ∖ {[w]}) st.

(** What the event loop can run next. *)
Inductive event :=
| RunReader
| RunSimulation (i : nat)
| PostStart
| PostStop
| WsOpen (w : ws)
| WsClosed (w : ws).

Definition step (e : env) (ev : event) (st : world) : world :=
  match ev with
  | RunReader => serial_reader e st
  | RunSimulation i => simulation_runner e i st
  | PostStart => (start_simulation st).1
  | PostStop => (stop_simulation st).1
  | WsOpen w => ws_endpoint e w st
  | WsClosed w => ws_disconnect w st
  end.

Definition run (evs : list (env * event)) (st : world) : world :=
  foldl (λ st ev, step ev.1 ev.2 st) st evs.

(** The reader scheduled once for every element of [es]. *)
Definition poll (es : list env) (st : world) : world :=
  foldl (λ st e, serial_reader e st) st es.

End Tasks.

(** ** Inputs of the examples *)

(** The raw record [{"A": 50, "lap": 3}]. *)
Definition raw_scenario : dict :=
  list_to_map [("A", PInt 50); ("lap", PInt 3)].

(** [27.0] *)
Definition f27 : float := S754_finite false 7599824371187712 (-48).

(** What [enrich_sample] returns for [raw_scenario] at clock [1000]. *)
Definition sample_scenario : dict :=
  list_to_map [
    ("t_ms", PInt 1000); ("lap", PInt 3); ("V", PNone); ("A", PInt 50);
    ("Ah", PNone); ("mph", PNone); ("torque", PFloat f27); ("lat", PNone);
    ("lon", PNone)].

(** [{"A": 10**400}]: a current beyond the range of a float. *)
Definition raw_huge_current : dict := {[ "A" := PInt (10 ^ 400) ]}.

(** [{"lap": -5}] *)
Definition raw_negative_lap : dict := {[ "lap" := PInt (-5) ]}.

(** [{"lap": null}], [{"t": "abc"}], [{"t": [1]}], [{"t": NaN}] *)
Definition raw_null_lap : dict := {[ "lap" := PNone ]}.
Definition raw_text_time : dict := {[ "t" := PStr "abc" ]}.
Definition raw_list_time : dict := {[ "t" := PList [PInt 1] ]}.
Definition raw_nan_time : dict := {[ "t" := PFloat S754_nan ]}.

(** A raw record goes through [enrich_sample] and [insert_sample] with the
    database up. *)
Definition ingest `{Parsers} `{Config} (now : Z) (raw : dict)
    (tbl : list row) : result (list row) :=
  sample ← enrich_sample now raw;
  insert_sample true sample tbl.

(** The table after raw records with laps [1, 1, 2, 3, 2] were ingested,
    starting from an empty table. *)
Definition laps_scenario `{Parsers} `{Config} : result (list row) :=
  foldl (λ acc lap, acc ≫= ingest 1000 {[ "lap" := PInt lap ]})
    (Ok []) [1; 1; 2; 3; 2].

(** A world in which the reader has the port open and handle [7] is
    subscribed, and the same world after [POST /api/simulation/start]. *)
Definition st_live : world :=
  set_reader Inner (set_clients {[7%nat]} (init [])).

Definition st_simulating : world := (start_simulation st_live).1.

Definition still : sim_reading :=
  {| sim_V := S754_zero false; sim_A := S754_zero false;
     sim_Ah := S754_zero false; sim_mph := S754_zero false;
     sim_torque := S754_zero false; sim_lat := S754_zero false;
     sim_lon := S754_zero false |}.

(** The port delivers [ln], every websocket is healthy, and the database
    is writable or not. *)
Definition env_with (up : bool) (ln : line) : env :=
  {| now_ms := 1000; db_up := up; port_ok := true; incoming := ln;
     net := λ _, None; reading := still |}.

Definition line_scenario : line := Json (PDict raw_scenario).

Definition env_up : env := env_with true line_scenario.


(** The reader is scheduled three times while the simulation runs. *)
Definition st_polled : world :=
  @poll ascii_parsers default_config [env_up; env_up; env_up] st_simulating.


(** The table of [laps_scenario]. *)
Definition tbl_scenario : list row :=
  match @laps_scenario ascii_parsers default_config with
  | Ok tbl => tbl
  | Raise _ => []
  end.

(** The simulation runs and its task sleeps between two ticks since clock
    [500]. *)
Definition st_ticking : world := set_task 0 (Sleeping 500) st_simulating.

(** The port cannot be opened. *)
Definition env_unplugged : env :=
  {| now_ms := 1000; db_up := true; port_ok := false; incoming := ReadError;
     net := λ _, None; reading := still |}.

Definition env_array : env := env_with true (Json (PList [])).

(** The clock is beyond the duration of a simulation started at [500]. *)
Definition env_late : env :=
  {| now_ms := 20000; db_up := true; port_ok := true; incoming := Blank;
     net := λ _, None; reading := still |}.

(** [sample_scenario] stored once and twice in an empty table. *)
Definition tbl_one : list row :=
  match @insert_sample ascii_parsers true sample_scenario [] with
  | Ok tbl => tbl
  | Raise _ => []
  end.


(** [st_ticking] after [POST /api/simulation/stop], and after a
    [POST /api/simulation/start] that follows at once. *)
Definition st_stopped : world := (stop_simulation st_ticking).1.
Definition st_restarted : world := (start_simulation st_stopped).1.


(** * Properties of enrichment *)

Section EnrichmentFacts.
Context `{Parsers} `{Config}.

(** A returned sample is the dictionary literal of the last statement,
    built from two successful conversions. *)
Lemma enrich_sample_inv now raw s :
  enrich_sample now raw = Ok s →
  ∃ t_ms lap torque,
    int (if is_none (get raw "t") then PInt now else get raw "t") = Ok t_ms
    ∧ int (get_or raw "lap" (PInt 0)) = Ok lap
    ∧ torque =
        (if is_none (get raw "torque") && negb (is_none (get raw "A")) then
           match float_ (get raw "A") with
           | Ok a => PFloat (fmul (fmul (fmul a K_T_NM_PER_AMP) GEAR_RATIO)
                               DRIVETRAIN_EFF)
           | Raise _ => PNone
           end
         else get raw "torque")
    ∧ s = list_to_map [
        ("t_ms", PInt t_ms); ("lap", PInt lap); ("V", get raw "V");
        ("A", get raw "A"); ("Ah", get raw "Ah"); ("mph", get raw "mph");
        ("torque", torque); ("lat", get raw "lat"); ("lon", get raw "lon")].
Proof.
  unfold enrich_sample. intros Hs.
  destruct (int (if is_none (get raw "t") then _ else _)) as [t|] eqn:Ht;
    [|discriminate].
  destruct (int (get_or raw "lap" (PInt 0))) as [l|] eqn:Hl;
    [|discriminate].
  simpl in Hs. injection Hs as <-. eauto 10.
Qed.

(** C10: a sample returned by [enrich_sample] has the nine keys [t_ms],
    [lap], [V], [A], [Ah], [mph], [torque], [lat], [lon] and no other, and
    its [t_ms] and [lap] are integers. *)
Theorem enrich_sample_fields now raw s :
  enrich_sample now raw = Ok s →
  dom s = list_to_set
    ["t_ms"; "lap"; "V"; "A"; "Ah"; "mph"; "torque"; "lat"; "lon"]
  ∧ (∃ t_ms, s !! "t_ms" = Some (PInt t_ms))
  ∧ (∃ lap, s !! "lap" = Some (PInt lap)).
Proof.
  intros (t & l & tq & _ & _ & _ & ->)%enrich_sample_inv.
  split; [by rewrite dom_list_to_map_L|].
  split; eexists; reflexivity.
Qed.

(** C3 (amended): when the raw torque is [None] or missing and [float]
    converts the current, the torque of the enriched sample is the
    binary64 product [float(A) * K_T * GEAR_RATIO * EFF]; a raw torque
    that is there passes through unchanged whatever the current; when the
    raw torque is not there and the current is missing or [float] rejects
    it (an integer beyond the float range, say), the torque stays [None].
    With the constants [0.06], [10.0], [0.9] the raw record
    [{"A": 50, "lap": 3}] gets torque [27.0] and lap [3]. *)
Theorem enrich_sample_torque now raw s :
  enrich_sample now raw = Ok s →
  (∀ a, get raw "torque" = PNone → float_ (get raw "A") = Ok a →
     s !! "torque" = Some (PFloat
       (fmul (fmul (fmul a K_T_NM_PER_AMP) GEAR_RATIO) DRIVETRAIN_EFF)))
  ∧ (get raw "torque" ≠ PNone → s !! "torque" = Some (get raw "torque"))
  ∧ (get raw "torque" = PNone → is_ok (float_ (get raw "A")) = false →
     s !! "torque" = Some PNone)
  ∧ (raw = raw_scenario →
     K_T_NM_PER_AMP = @K_T_NM_PER_AMP default_config →
     GEAR_RATIO = @GEAR_RATIO default_config →
     DRIVETRAIN_EFF = @DRIVETRAIN_EFF default_config →
     s !! "torque" = Some (PFloat f27) ∧ s !! "lap" = Some (PInt 3)).
Proof.
  intros (t & l & tq & _ & Hl & Htq & ->)%enrich_sample_inv.
  change (_ !! "torque") with (Some tq).
  change (_ !! "lap") with (Some (PInt l)).
  split; [|split; [|split]].
  - intros a Hnone Ha. rewrite Htq, Hnone, Ha.
    by destruct (get raw "A").
  - intros Hsome. rewrite Htq. by destruct (get raw "torque").
  - intros Hnone Ha. rewrite Htq, Hnone.
    destruct (get raw "A"); try done; simpl in *;
      by destruct (float_of_Z _) || destruct (float_of_str _).
  - intros -> Hk Hg He. split.
    + rewrite Htq, Hk, Hg, He. by vm_compute.
    + vm_compute in Hl. by injection Hl as <-.
Qed.

(** C9 (amended): with a timestamp that is missing, [None] or convertible,
    [enrich_sample] returns a sample whose lap is [int] of the raw lap
    when the key is there and convertible, negative values included, and
    [0] when the key is missing. *)
Theorem enrich_sample_lap now raw :
  get raw "t" = PNone ∨ is_ok (int (get raw "t")) = true →
  (∀ v n, raw !! "lap" = Some v → int v = Ok n →
     ∃ s, enrich_sample now raw = Ok s ∧ s !! "lap" = Some (PInt n))
  ∧ (raw !! "lap" = None →
     ∃ s, enrich_sample now raw = Ok s ∧ s !! "lap" = Some (PInt 0)).
Proof.
  intros Ht.
  assert (∃ t, int (if is_none (get raw "t") then PInt now else get raw "t")
               = Ok t) as [t Ht'].
  { destruct Ht as [-> | Ht]; [by eexists|].
    destruct (get raw "t") eqn:E; simpl in *; try done;
      try (by eexists);
      by destruct (Z_of_float _) || destruct (int_of_str _); eauto. }
  split.
  - intros v n Hv Hn. unfold enrich_sample, get_or.
    rewrite Ht', Hv. simpl. rewrite Hn. simpl. by eexists.
  - intros Hv. unfold enrich_sample, get_or.
    rewrite Ht', Hv. simpl. by eexists.
Qed.

(** C2: [enrich_sample] raises on a lap or a timestamp that [int] does not
    convert: [{"lap": null}], [{"t": [1]}] and [{"t": NaN}] for every
    parser of strings, and [{"t": "abc"}] as well. *)
Theorem enrich_sample_raises now :
  enrich_sample now raw_null_lap = Raise TypeError
  ∧ enrich_sample now raw_list_time = Raise TypeError
  ∧ enrich_sample now raw_nan_time = Raise ValueError
  ∧ @enrich_sample ascii_parsers _ now raw_text_time = Raise ValueError.
Proof. by repeat split. Qed.
End EnrichmentFacts.

(** In C3 as first stated, the integer current [10**400] is numeric and no
    torque is given, yet the enriched torque is [None]: [float] raises
    [OverflowError] and the handler leaves the torque out. *)
Lemma huge_current_has_no_torque :
  float_of_Z (10 ^ 400) = Raise OverflowError
  ∧ ∃ s, @enrich_sample ascii_parsers default_config 1000 raw_huge_current
         = Ok s
       ∧ s !! "A" = Some (PInt (10 ^ 400))
       ∧ s !! "torque" = Some PNone.
Proof. split; [by vm_compute|]. eexists. by vm_compute. Qed.

Lemma enrich_sample_torque_witness :
  @enrich_sample ascii_parsers default_config 1000 raw_scenario
    = Ok sample_scenario
  ∧ sample_scenario !! "torque" = Some (PFloat f27)
  ∧ sample_scenario !! "lap" = Some (PInt 3).
Proof.
  assert (@enrich_sample ascii_parsers default_config 1000 raw_scenario
          = Ok sample_scenario) as Hs by (by vm_compute).
  split; [exact Hs|].
  by apply (@enrich_sample_torque ascii_parsers default_config
              1000 raw_scenario sample_scenario Hs).
Defined.

(** In C9 as first stated, the raw lap [-5] is not a non-negative integer,
    yet the enriched lap is [-5], not [0]. *)
Lemma negative_lap_is_kept :
  ∃ s, @enrich_sample ascii_parsers default_config 1000 raw_negative_lap = Ok s
     ∧ s !! "lap" = Some (PInt (-5))
     ∧ s !! "lap" ≠ Some (PInt 0)
     ∧ -5 < 0.
Proof. eexists. by vm_compute. Qed.

Lemma enrich_sample_lap_witness :
  ∃ s, @enrich_sample ascii_parsers default_config 1000 raw_negative_lap = Ok s
     ∧ s !! "lap" = Some (PInt (-5)).
Proof.
  destruct (@enrich_sample_lap ascii_parsers default_config 1000
              raw_negative_lap) as [Hpresent _]; [by left|].
  apply (Hpresent (PInt (-5))); by vm_compute.
Defined.


(** * Properties of the store *)

Section StoreFacts.
Context `{Parsers} `{Config}.

Lemma sql_max_nil xs : sql_max xs = None → xs = [].
Proof. by destruct xs. Qed.

Lemma sql_max_upper xs m :
  sql_max xs = Some m → m ∈ xs ∧ Forall (λ x, x ≤ m) xs.
Proof.
  revert m. induction xs as [|x xs IH]; intros m Hm; [done|].
  simpl in Hm. destruct (sql_max xs) as [m'|] eqn:E; simpl in Hm.
  - destruct (IH m' eq_refl) as [Hin Hall]. injection Hm as <-.
    split.
    + destruct (Z.max_spec x m') as [[_ ->] | [_ ->]];
        [by apply list_elem_of_further | by apply list_elem_of_here].
    + constructor; [lia|].
      eapply Forall_impl; [exact Hall|]. simpl. lia.
  - apply sql_max_nil in E as ->. injection Hm as <-.
    split; [by apply list_elem_of_here|]. by constructor.
Qed.

(** A list sorted by [≤] without repetition increases strictly. *)
Lemma Sorted_le_NoDup_lt (l : list Z) :
  Sorted Z.le l → NoDup l → StronglySorted Z.lt l.
Proof.
  intros Hs%Sorted_StronglySorted; [|apply _].
  induction Hs as [|x l Hs IH Hx]; intros Hnd; [constructor|].
  apply NoDup_cons in Hnd as [Hnotin Hnd].
  constructor; [by apply IH|].
  apply Forall_forall. intros y Hy.
  rewrite Forall_forall in Hx. specialize (Hx y Hy).
  assert (x ≠ y) by (by intros ->). lia.
Qed.

Lemma elem_of_get_laps tbl l :
  l ∈ get_laps tbl ↔ ∃ r, r ∈ tbl ∧ row_lap r = l.
Proof.
  unfold get_laps. rewrite merge_sort_Permutation, elem_of_remove_dups.
  rewrite list_elem_of_fmap.
  split; intros (r & ? & ?); by exists r.
Qed.

(** C8: for every table, [get_laps] lists the laps of the rows, each
    once, in increasing order, and [get_latest_lap] is the largest of them,
    or [0] when the table has no row; after samples with laps
    [1, 1, 2, 3, 2] the list is [[1; 2; 3]]. *)
Theorem get_laps_spec tbl :
  StronglySorted Z.lt (get_laps tbl)
  ∧ (∀ l, l ∈ get_laps tbl ↔ ∃ r, r ∈ tbl ∧ row_lap r = l)
  ∧ match tbl with
    | [] => get_laps tbl = [] ∧ get_latest_lap tbl = 0
    | _ :: _ =>
        get_latest_lap tbl ∈ get_laps tbl
        ∧ Forall (λ l, l ≤ get_latest_lap tbl) (get_laps tbl)
    end
  ∧ ∃ tbl5, laps_scenario = Ok tbl5
      ∧ row_lap <$> tbl5 = [1; 1; 2; 3; 2]
      ∧ api_laps (set_samples tbl5 (init [])) = ([1; 2; 3], 3).
Proof.
  split; [|split; [|split]].
  - apply Sorted_le_NoDup_lt.
    + apply Sorted_merge_sort, _.
    + unfold get_laps. rewrite merge_sort_Permutation.
      apply NoDup_remove_dups.
  - apply elem_of_get_laps.
  - destruct tbl as [|r tbl]; [done|].
    unfold get_latest_lap.
    destruct (sql_max (row_lap <$> r :: tbl)) as [m|] eqn:E;
      [|by apply sql_max_nil in E].
    apply sql_max_upper in E as [Hin Hall]. split.
    + apply elem_of_get_laps.
      apply list_elem_of_fmap in Hin as (r' & -> & Hr'). by exists r'.
    + apply Forall_forall. intros l (r' & Hr' & <-)%elem_of_get_laps.
      rewrite Forall_forall in Hall. apply Hall.
      by apply list_elem_of_fmap_2.
  - eexists. by vm_compute.
Qed.
End StoreFacts.

(** * Properties of the broadcaster *)

Section BroadcastFacts.
Implicit Types (nt : ws → option exn) (sample : dict) (st : world).




(** The loop of [broadcast] tries every handle in turn and collects the
    handles whose send raised. *)
Lemma foldl_send_to nt sample order tr dead :
  foldl (send_to nt sample) (tr, dead) order
  = (tr ++ ((λ w, WsSend w sample (nt w)) <$> order),
     dead ++ filter (λ w, link_ok nt w = false) order).
Proof.
  revert tr dead. induction order as [|w order IH]; intros tr dead.
  { simpl. by rewrite !app_nil_r. }
  simpl. unfold send_to at 2. simpl. rewrite filter_cons.
  destruct (nt w) as [ex|] eqn:E; rewrite IH.
  - rewrite decide_True by (unfold link_ok; by rewrite E).
    by rewrite <-!app_assoc.
  - rewrite decide_False by (unfold link_ok; by rewrite E).
    by rewrite <-!app_assoc.
Qed.


Lemma broadcast_trace nt sample st :
  trace (broadcast nt sample st)
  = trace st ++ ((λ w, WsSend w sample (nt w)) <$> elements (clients st)).
Proof. unfold broadcast. by rewrite foldl_send_to. Qed.


Lemma broadcast_frame nt sample st :
  let st' := broadcast nt sample st in
  simulation_mode st' = simulation_mode st
  ∧ simulation_task st' = simulation_task st
  ∧ tasks st' = tasks st
  ∧ latest_sample st' = latest_sample st
  ∧ samples st' = samples st
  ∧ reader st' = reader st
  ∧ produced st' = produced st.
Proof. unfold broadcast. by destruct (foldl _ _ _). Qed.



End BroadcastFacts.

(** * Properties of the tasks *)

Section TaskFacts.
Context `{Parsers} `{Config}.
Implicit Types (e : env) (st : world).

(** While the flag is set an iteration of [serial_reader] only leaves the
    inner loop or sleeps. *)
Lemma serial_reader_simulating e st :
  simulation_mode st = true →
  serial_reader e st
  = match reader st with
    | Outer => emit [Sleep 100] st
    | Inner => set_reader Outer st
    end.
Proof. intros Hsim. unfold serial_reader. by rewrite Hsim. Qed.

Lemma serial_reader_open e st :
  simulation_mode st = false → reader st = Outer → port_ok e = true →
  serial_reader e st = set_reader Inner (emit [SerialOpen true] st).
Proof. intros Hsim Hpc Hport. unfold serial_reader. by rewrite Hsim, Hpc, Hport. Qed.

(** A decoded record that is enriched and stored is broadcast. *)
Lemma serial_reader_record e st d sample tbl :
  simulation_mode st = false → reader st = Inner →
  incoming e = Json (PDict d) →
  enrich_sample (now_ms e) d = Ok sample →
  insert_sample (db_up e) sample (samples st) = Ok tbl →
  serial_reader e st
  = broadcast (net e) sample
      (set_samples tbl
         (set_latest_sample sample (emit [SerialRead (incoming e)] st))).
Proof.
  intros Hsim Hpc Hin Hen Hins. unfold serial_reader.
  rewrite Hsim, Hpc, Hin. simpl. rewrite Hen. simpl. by rewrite Hins.
Qed.


(** What reaches store and observers when the reader ingests a record. *)
Lemma serial_reader_ingests e st d sample tbl :
  simulation_mode st = false → reader st = Inner →
  incoming e = Json (PDict d) →
  enrich_sample (now_ms e) d = Ok sample →
  insert_sample (db_up e) sample (samples st) = Ok tbl →
  let st' := serial_reader e st in
  samples st' = tbl
  ∧ latest_sample st' = sample
  ∧ trace st' = trace st ++ [SerialRead (incoming e)]
                ++ ((λ w, WsSend w sample (net e w)) <$> elements (clients st))
  ∧ reader st' = Inner
  ∧ simulation_mode st' = false.
Proof.
  intros Hsim Hpc Hin Hen Hins. simpl.
  rewrite (serial_reader_record e st d sample tbl) by done.
  destruct (broadcast_frame (net e) sample
    (set_samples tbl
       (set_latest_sample sample (emit [SerialRead (incoming e)] st))))
    as (-> & _ & _ & -> & -> & -> & _).
  rewrite broadcast_trace. simpl. by rewrite <-app_assoc.
Qed.


(** C4 (amended): while the flag is set, an iteration of [serial_reader]
    reads nothing from the port, stores nothing, sends nothing and leaves
    [latest_sample] alone: it leaves the read loop and sleeps 0.1 s at the
    head of the outer loop.  [stop_simulation] clears the flag; with the
    flag clear the reader opens the port again, and a record that it then
    reads, enriches and stores is in the table and is sent to every
    subscribed observer. *)
Theorem live_reader_gated_by_flag st :
  simulation_mode st = true →
  (∀ e, let st' := serial_reader e st in
     samples st' = samples st
     ∧ clients st' = clients st
     ∧ latest_sample st' = latest_sample st
     ∧ produced st' = produced st
     ∧ simulation_mode st' = true
     ∧ reader st' = Outer
     ∧ (trace st' = trace st ∨ trace st' = trace st ++ [Sleep 100]))
  ∧ simulation_mode (stop_simulation st).1 = false
  ∧ samples (stop_simulation st).1 = samples st
  ∧ clients (stop_simulation st).1 = clients st
  ∧ reader (stop_simulation st).1 = reader st
  ∧ ∀ st1, simulation_mode st1 = false →
      (∀ e, reader st1 = Outer → port_ok e = true →
         serial_reader e st1 = set_reader Inner (emit [SerialOpen true] st1))
      ∧ (∀ e d sample tbl, reader st1 = Inner →
           incoming e = Json (PDict d) →
           enrich_sample (now_ms e) d = Ok sample →
           insert_sample (db_up e) sample (samples st1) = Ok tbl →
           let st2 := serial_reader e st1 in
           samples st2 = tbl
           ∧ latest_sample st2 = sample
           ∧ trace st2 = trace st1 ++ [SerialRead (incoming e)]
               ++ ((λ w, WsSend w sample (net e w))
                     <$> elements (clients st1))).
Proof.
  intros Hsim. split; [|split; [|split; [|split; [|split]]]].
  - intros e. simpl. rewrite serial_reader_simulating by done.
    destruct (reader st) eqn:Hpc; simpl; do 6 (split; [done|]);
      [by right | by left].
  - unfold stop_simulation. rewrite Hsim. simpl.
    by destruct (simulation_task st).
  - unfold stop_simulation. rewrite Hsim. simpl.
    by destruct (simulation_task st).
  - unfold stop_simulation. rewrite Hsim. simpl.
    by destruct (simulation_task st).
  - unfold stop_simulation. rewrite Hsim. simpl.
    by destruct (simulation_task st).
  - intros st1 Hlive. split.
    + intros e Hpc Hport. by apply serial_reader_open.
    + intros e d sample tbl Hpc Hin Hen Hins.
      by destruct (serial_reader_ingests e st1 d sample tbl)
        as (? & ? & ? & _).
Qed.

(** C5: [start_simulation] with the flag set changes nothing, creates no
    task and answers "simulation already running"; with the flag clear it
    sets the flag, creates one task and answers "simulation started".
    [stop_simulation] with the flag clear changes nothing and answers
    "simulation not running"; with the flag set it clears the flag, creates
    no task and answers "simulation stopped". *)
Theorem start_stop_simulation_spec st :
  (if simulation_mode st then
     start_simulation st = (st, "simulation already running")
   else
     simulation_mode (start_simulation st).1 = true
     ∧ tasks (start_simulation st).1 = tasks st ++ [Created]
     ∧ simulation_task (start_simulation st).1 = Some (length (tasks st))
     ∧ (start_simulation st).2 = "simulation started"
     ∧ start_simulation (start_simulation st).1
       = ((start_simulation st).1, "simulation already running"))
  ∧ (if simulation_mode st then
       simulation_mode (stop_simulation st).1 = false
       ∧ tasks (stop_simulation st).1 = tasks st
       ∧ (stop_simulation st).2 = "simulation stopped"
       ∧ stop_simulation (stop_simulation st).1
         = ((stop_simulation st).1, "simulation not running")
     else
       stop_simulation st = (st, "simulation not running")).
Proof.
  unfold start_simulation, stop_simulation.
  destruct (simulation_mode st) eqn:Hsim; simpl; [|by rewrite ?Hsim].
  split; [done|]. by destruct (simulation_task st).
Qed.
(** *** The cache of the latest sample along a run *)











(** *** The trace only grows *)





End TaskFacts.

(** * The theorems at concrete inputs *)

Lemma enrich_sample_fields_witness :
  @enrich_sample ascii_parsers default_config 1000 raw_scenario
    = Ok sample_scenario
  ∧ dom sample_scenario = list_to_set
      ["t_ms"; "lap"; "V"; "A"; "Ah"; "mph"; "torque"; "lat"; "lon"]
  ∧ (∃ t_ms, sample_scenario !! "t_ms" = Some (PInt t_ms))
  ∧ (∃ lap, sample_scenario !! "lap" = Some (PInt lap)).
Proof.
  assert (@enrich_sample ascii_parsers default_config 1000 raw_scenario
          = Ok sample_scenario) as Hs by (by vm_compute).
  split; [exact Hs|].
  exact (@enrich_sample_fields ascii_parsers default_config
           1000 raw_scenario sample_scenario Hs).
Defined.



(** In C4 as first stated: the simulation runs and a record waits on the
    port; scheduled three times, the reader never reads the port. *)
Lemma reader_idle_during_simulation :
  simulation_mode st_simulating = true
  ∧ reader st_simulating = Inner
  ∧ incoming env_up = line_scenario
  ∧ trace st_polled = [Sleep 100; Sleep 100]
  ∧ samples st_polled = [].
Proof. by vm_compute. Qed.

Lemma live_reader_gated_by_flag_witness :
  simulation_mode st_simulating = true
  ∧ samples (@serial_reader ascii_parsers default_config env_up st_simulating)
    = samples st_simulating
  ∧ simulation_mode (stop_simulation st_simulating).1 = false.
Proof.
  destruct (@live_reader_gated_by_flag ascii_parsers default_config
              st_simulating eq_refl) as (Hgate & Hstop & _).
  split; [reflexivity|]. split; [exact (proj1 (Hgate env_up))|exact Hstop].
Defined.


(** * Further properties of the store *)

Section StoreMore.
Context `{Parsers} `{Config}.

Lemma sql_bind_int n :
  is_ok (sql_bind (PInt n)) = bool_decide (- 2 ^ 63 ≤ n < 2 ^ 63).
Proof. unfold sql_bind. by case_bool_decide. Qed.

(** What a successful [insert_sample] went through. *)
Lemma insert_sample_inv up s tbl tbl' :
  insert_sample up s tbl = Ok tbl' →
  up = true
  ∧ ∃ t_ms lap V A Ah mph torque lat lon,
      int (get_or s "t_ms" (PInt 0)) = Ok t_ms
      ∧ int (get_or s "lap" (PInt 0)) = Ok lap
      ∧ - 2 ^ 63 ≤ t_ms < 2 ^ 63
      ∧ - 2 ^ 63 ≤ lap < 2 ^ 63
      ∧ sql_bind (get s "V") = Ok V
      ∧ sql_bind (get s "A") = Ok A
      ∧ sql_bind (get s "Ah") = Ok Ah
      ∧ sql_bind (get s "mph") = Ok mph
      ∧ sql_bind (get s "torque") = Ok torque
      ∧ sql_bind (get s "lat") = Ok lat
      ∧ sql_bind (get s "lon") = Ok lon
      ∧ tbl' = tbl ++ [{|
          row_id := Z.of_nat (length tbl) + 1;
          row_t_ms := t_ms; row_lap := lap;
          row_V := V; row_A := A; row_Ah := Ah; row_mph := mph;
          row_torque := torque; row_lat := lat; row_lon := lon |}].
Proof.
  unfold insert_sample. destruct up; [|done]. simpl.
  destruct (int (get_or s "t_ms" (PInt 0))) as [t|]; [|done]. simpl.
  destruct (int (get_or s "lap" (PInt 0))) as [l|]; [|done]. simpl.
  destruct (bool_decide (- 2 ^ 63 ≤ t < 2 ^ 63)) eqn:Et; simpl; [|done].
  destruct (bool_decide (- 2 ^ 63 ≤ l < 2 ^ 63)) eqn:El; simpl; [|done].
  apply bool_decide_eq_true in Et, El.
  destruct (sql_bind (get s "V")) as [V|]; [|done]. simpl.
  destruct (sql_bind (get s "A")) as [A|]; [|done]. simpl.
  destruct (sql_bind (get s "Ah")) as [Ah|]; [|done]. simpl.
  destruct (sql_bind (get s "mph")) as [mph|]; [|done]. simpl.
  destruct (sql_bind (get s "torque")) as [tq|]; [|done]. simpl.
  destruct (sql_bind (get s "lat")) as [lat|]; [|done]. simpl.
  destruct (sql_bind (get s "lon")) as [lon|]; [|done]. simpl.
  intros [= <-]. split; [done|]. by eexists _, _, _, _, _, _, _, _, _.
Qed.

(** X1: a successful [insert_sample] leaves every earlier row in place and
    adds exactly one row at the end; that row carries [int] of the sample's
    [t_ms] and [lap] ([0] for a missing key), both within 64 bits. *)
Theorem insert_sample_appends up s tbl tbl' :
  insert_sample up s tbl = Ok tbl' →
  ∃ r, tbl' = tbl ++ [r]
     ∧ int (get_or s "t_ms" (PInt 0)) = Ok (row_t_ms r)
     ∧ int (get_or s "lap" (PInt 0)) = Ok (row_lap r)
     ∧ - 2 ^ 63 ≤ row_t_ms r < 2 ^ 63
     ∧ - 2 ^ 63 ≤ row_lap r < 2 ^ 63.
Proof.
  intros (_ & t & l & V & A & Ah & mph & tq & lat & lon & Ht & Hl & ? & ?
          & _ & _ & _ & _ & _ & _ & _ & ->)%insert_sample_inv.
  by eexists.
Qed.


Lemma sql_max_snoc xs x :
  sql_max (xs ++ [x]) = Some (from_option (λ m, Z.max m x) x (sql_max xs)).
Proof.
  induction xs as [|y xs IH]; [done|].
  simpl. rewrite IH. f_equal.
  destruct (sql_max xs) as [m|]; simpl; lia.
Qed.

(** X3: after a successful [insert_sample] of a sample with lap [lap],
    [get_laps] lists [lap] besides the laps it listed before, and
    [get_latest_lap] is [lap] itself when the table was empty (even when
    [lap] is negative) and the larger of the old value and [lap]
    otherwise. *)
Theorem laps_after_insert up s tbl tbl' lap :
  insert_sample up s tbl = Ok tbl' →
  int (get_or s "lap" (PInt 0)) = Ok lap →
  (∀ l, l ∈ get_laps tbl' ↔ l ∈ get_laps tbl ∨ l = lap)
  ∧ get_latest_lap tbl'
    = match tbl with
      | [] => lap
      | _ :: _ => Z.max (get_latest_lap tbl) lap
      end.
Proof.
  intros (_ & t & l0 & V & A & Ah & mph & tq & lat & lon & _ & Hl & Hrest)
    %insert_sample_inv Hlap.
  destruct Hrest as (_ & _ & _ & _ & _ & _ & _ & _ & _ & ->).
  set (r := {| row_id := Z.of_nat (length tbl) + 1; row_t_ms := t;
               row_lap := l0; row_V := V; row_A := A; row_Ah := Ah;
               row_mph := mph; row_torque := tq; row_lat := lat;
               row_lon := lon |}).
  rewrite Hlap in Hl. injection Hl as Hl.
  change l0 with (row_lap r) in Hl. clearbody r. split.
  - intros l. rewrite !elem_of_get_laps. split.
    + intros (r' & [Hr'|Hr']%elem_of_app & <-); [left; by exists r'|].
      apply list_elem_of_singleton in Hr' as ->. by right.
    + intros [(r' & Hr' & <-)| ->].
      * exists r'. split; [|done]. apply elem_of_app. by left.
      * exists r. split; [|done]. apply elem_of_app. right.
        by apply list_elem_of_singleton.
  - unfold get_latest_lap. rewrite fmap_app. simpl. rewrite sql_max_snoc.
    rewrite <-Hl. destruct tbl as [|r0 tbl]; [done|].
    destruct (sql_max (row_lap <$> r0 :: tbl)) as [m|] eqn:E; [done|].
    by apply sql_max_nil in E.
Qed.
End StoreMore.

(** * Properties of the per-lap queries *)

Section QueryFacts.
Implicit Types (lap : Z) (tbl : list row).

#[local] Instance t_ms_le_total : Total t_ms_le.
Proof. intros r1 r2. unfold t_ms_le. lia. Qed.

#[local] Instance t_ms_le_trans : Transitive t_ms_le.
Proof. intros r1 r2 r3. unfold t_ms_le. lia. Qed.

Lemma order_by_t_ms_sorted rows :
  StronglySorted t_ms_le (order_by_t_ms rows).
Proof. apply StronglySorted_merge_sort; apply _. Qed.

Lemma order_by_t_ms_perm rows : order_by_t_ms rows ≡ₚ rows.
Proof. apply merge_sort_Permutation. Qed.

Lemma filter_nil_iff {A} (P : A → Prop) `{!∀ x, Decision (P x)} (l : list A) :
  filter P l = [] ↔ ∀ x, x ∈ l → ¬ P x.
Proof.
  split.
  - intros Hnil x Hx HP. by eapply filter_nil_not_elem_of.
  - intros Hall. destruct (filter P l) as [|x l'] eqn:E; [done|].
    assert (x ∈ filter P l) as [HP Hx]%list_elem_of_filter
      by (rewrite E; apply list_elem_of_here).
    by destruct (Hall x Hx).
Qed.

(** X4: [get_lap_timeseries] raises [OverflowError] for a lap beyond 64
    bits and nothing else; otherwise its points are exactly those of the
    rows of that lap, none lost and none added, in non-decreasing order of
    [t_ms], and the list is empty exactly when [get_laps] does not list the
    lap. *)
Theorem get_lap_timeseries_spec lap tbl :
  match get_lap_timeseries lap tbl with
  | Ok pts =>
      - 2 ^ 63 ≤ lap < 2 ^ 63
      ∧ StronglySorted Z.le (sp_t_ms <$> pts)
      ∧ pts ≡ₚ series_of <$> filter (in_lap lap) tbl
      ∧ (pts = [] ↔ lap ∉ get_laps tbl)
  | Raise ex => ex = OverflowError ∧ ¬ (- 2 ^ 63 ≤ lap < 2 ^ 63)
  end.
Proof.
  unfold get_lap_timeseries, sql_bind.
  case_bool_decide as Hlap; simpl; [|done].
  split; [done|]. split; [|split].
  - rewrite <-list_fmap_compose.
    eapply StronglySorted_fmap, order_by_t_ms_sorted. by intros r1 r2.
  - by rewrite order_by_t_ms_perm.
  - rewrite elem_of_get_laps. split.
    + intros Hnil%fmap_nil_inv (r & Hr & Hrl).
      assert (filter (in_lap lap) tbl = []) as Hfil.
      { apply Permutation_nil_r. by rewrite <-order_by_t_ms_perm, Hnil. }
      by eapply (filter_nil_not_elem_of (in_lap lap)).
    + intros Hnone.
      assert (filter (in_lap lap) tbl = []) as Hfil.
      { apply filter_nil_iff. intros r Hr Hrl. apply Hnone. by exists r. }
      unfold order_by_t_ms. by rewrite Hfil.
Qed.

(** X5: [get_lap_gps] raises [OverflowError] for a lap beyond 64 bits;
    otherwise its points are exactly those of the rows of that lap whose
    latitude and longitude are both stored as non-NULL (a [None] or a NaN
    coordinate leaves the row out), in non-decreasing order of [t_ms], and
    their timestamps are among those of [get_lap_timeseries] for the same
    lap. *)
Theorem get_lap_gps_spec lap tbl :
  match get_lap_gps lap tbl with
  | Ok pts =>
      StronglySorted Z.le (gp_t_ms <$> pts)
      ∧ pts ≡ₚ gps_of <$> filter (has_fix lap) tbl
      ∧ Forall (λ p, sql_stored_null (gp_lat p) = false
                     ∧ sql_stored_null (gp_lon p) = false) pts
      ∧ ∃ series, get_lap_timeseries lap tbl = Ok series
          ∧ gp_t_ms <$> pts ⊆+ sp_t_ms <$> series
  | Raise ex => ex = OverflowError ∧ ¬ (- 2 ^ 63 ≤ lap < 2 ^ 63)
  end.
Proof.
  unfold get_lap_gps, get_lap_timeseries, sql_bind.
  case_bool_decide as Hlap; simpl; [|done].
  split; [|split; [|split]].
  - rewrite <-list_fmap_compose.
    eapply StronglySorted_fmap, order_by_t_ms_sorted. by intros r1 r2.
  - by rewrite order_by_t_ms_perm.
  - rewrite Forall_fmap. apply Forall_forall. intros r Hr.
    rewrite order_by_t_ms_perm in Hr.
    by apply list_elem_of_filter in Hr as [(_ & ? & ?) _].
  - eexists. split; [done|].
    rewrite <-!list_fmap_compose, !order_by_t_ms_perm.
    apply fmap_submseteq, sublist_submseteq.
    rewrite <-(list_filter_filter_l (has_fix lap) (in_lap lap))
      by (by intros r [? _]).
    apply sublist_filter.
Qed.
End QueryFacts.

(** * Further properties of the broadcaster *)

Section BroadcastMore.
Implicit Types (nt : ws → option exn) (sample : dict) (st : world).



Lemma publish_all_trace ps st :
  ∃ l, trace (publish_all ps st) = trace st ++ l.
Proof.
  revert st. induction ps as [|[nt s] ps IH]; intros st.
  { exists []. by rewrite app_nil_r. }
  simpl. destruct (IH (broadcast nt s st)) as [l ->].
  rewrite broadcast_trace, <-app_assoc. by eexists.
Qed.




End BroadcastMore.

(** * Further properties of the live reader *)

Section ReaderMore.
Context `{Parsers} `{Config}.
Implicit Types (e : env) (st : world).




(** X11: a decoded line that is not an object, or an object that
    [enrich_sample] rejects, is handled like a port error: nothing is
    stored or sent, [latest_sample] and the subscribers are untouched, and
    the reader sleeps one second and goes back to opening the port. *)
Theorem bad_record_drops_connection e st v :
  simulation_mode st = false → reader st = Inner →
  incoming e = Json v →
  match v with
  | PDict d => is_ok (enrich_sample (now_ms e) d) = false
  | _ => True
  end →
  let st' := serial_reader e st in
  samples st' = samples st
  ∧ latest_sample st' = latest_sample st
  ∧ produced st' = produced st
  ∧ clients st' = clients st
  ∧ reader st' = Outer
  ∧ trace st' = trace st ++ [SerialRead (incoming e); Sleep 1000].
Proof.
  intros Hsim Hpc Hin Hbad. simpl.
  assert (serial_reader e st
          = reader_except (emit [SerialRead (incoming e)] st)) as ->.
  { unfold serial_reader. rewrite Hsim, Hpc, Hin.
    destruct v; simpl; try done.
    by destruct (enrich_sample (now_ms e) d). }
  do 5 (split; [done|]). simpl. by rewrite <-app_assoc.
Qed.

(** X12: the reader, the websocket handler and a closing connection never
    change the mode flag or the generator tasks: only the two simulation
    requests and the generator itself do. *)
Theorem flag_owned_by_simulation e ev st :
  match ev with
  | RunReader | WsOpen _ | WsClosed _ =>
      simulation_mode (step e ev st) = simulation_mode st
      ∧ simulation_task (step e ev st) = simulation_task st
      ∧ tasks (step e ev st) = tasks st
  | _ => True
  end.
Proof.
  destruct ev; try done; simpl.
  - unfold serial_reader.
    destruct (reader st), (simulation_mode st) eqn:Hsim; simpl; try done.
    { by destruct (port_ok e). }
    destruct (incoming e) as [| | |v]; try done.
    destruct (as_dict v ≫= enrich_sample (now_ms e)) as [sample|]; [|done].
    destruct (insert_sample _ _ _) as [tbl|]; [|done].
    by destruct (broadcast_frame (net e) sample
      (set_samples tbl
         (set_latest_sample sample (emit [SerialRead (Json v)] st))))
      as (-> & -> & -> & _).
  - unfold ws_endpoint. simpl. destruct (truthy _); [|done].
    by destruct (net e w) as [[]|].
Qed.

Lemma insert_sample_prefix up s tbl tbl' :
  insert_sample up s tbl = Ok tbl' → ∃ r, tbl' = tbl ++ [r].
Proof.
  intros (_ & t & l & V & A & Ah & mph & tq & lat & lon & Hrest)
    %insert_sample_inv.
  destruct Hrest as (_ & _ & _ & _ & _ & _ & _ & _ & _ & _ & _ & ->).
  by eexists.
Qed.

Lemma step_samples e ev st :
  ∃ rows, samples (step e ev st) = samples st ++ rows
        ∧ (length rows ≤ 1)%nat.
Proof.
  assert (∃ rows, samples st = samples st ++ rows ∧ (length rows ≤ 1)%nat)
    as Hsame by (exists []; rewrite app_nil_r; split; [done|simpl; lia]).
  destruct ev; simpl; try done.
  - unfold serial_reader.
    destruct (reader st), (simulation_mode st); simpl; try done.
    { by destruct (port_ok e). }
    destruct (incoming e) as [| | |v]; try done.
    destruct (as_dict v ≫= enrich_sample (now_ms e)) as [sample|]; [|done].
    simpl. destruct (insert_sample _ _ _) as [tbl|] eqn:Hins; [|done].
    destruct (broadcast_frame (net e) sample
      (set_samples tbl
         (set_latest_sample sample (emit [SerialRead (Json v)] st))))
      as (_ & _ & _ & _ & -> & _).
    apply insert_sample_prefix in Hins as [r ->]. by exists [r].
  - unfold simulation_runner.
    assert (∀ t0, ∃ rows,
      samples (simulation_loop e i t0 st) = samples st ++ rows
      ∧ (length rows ≤ 1)%nat) as Hloop.
    { intros t0. unfold simulation_loop.
      destruct (simulation_mode st); [|done].
      case_bool_decide; [done|].
      simpl. destruct (insert_sample _ _ _) as [tbl|] eqn:Hins; [|done].
      simpl.
      destruct (broadcast_frame (net e)
        (simulated_sample (now_ms e - t0 + t0) (reading e))
        (set_samples tbl
           (set_latest_sample
              (simulated_sample (now_ms e - t0 + t0) (reading e)) st)))
        as (_ & _ & _ & _ & -> & _).
      apply insert_sample_prefix in Hins as [r ->]. by exists [r]. }
    destruct (tasks st !! i) as [[| | |]|]; by try apply Hloop.
  - unfold start_simulation. by destruct (simulation_mode st).
  - unfold stop_simulation. destruct (simulation_mode st); [|done].
    simpl. by destruct (simulation_task st).
  - unfold ws_endpoint. simpl. destruct (truthy _); [|done].
    by destruct (net e w) as [[]|].
Qed.

(** X13: along any run the table only grows at its end: no step removes or
    rewrites a stored row, and a step adds at most one. *)
Theorem table_is_append_only evs st :
  ∃ rows, samples (run evs st) = samples st ++ rows
        ∧ (length rows ≤ length evs)%nat.
Proof.
  revert st. induction evs as [|[e ev] evs IH]; intros st.
  { exists []. by rewrite app_nil_r. }
  simpl. destruct (IH (step e ev st)) as (rows2 & -> & Hlen2).
  destruct (step_samples e ev st) as (rows1 & -> & Hlen1).
  exists (rows1 ++ rows2). rewrite app_assoc, length_app. split; [done|lia].
Qed.

(** X14: while the port cannot be opened and the flag is clear, every
    iteration of the reader tries to open it and sleeps one second, with
    the same delay every time and without ever giving up, and changes
    nothing else; the first time the port opens the reader enters the read
    loop. *)
Theorem port_retry_is_unconditional es e st :
  simulation_mode st = false → reader st = Outer →
  Forall (λ e, port_ok e = false) es → port_ok e = true →
  let st' := poll es st in
  samples st' = samples st
  ∧ latest_sample st' = latest_sample st
  ∧ clients st' = clients st
  ∧ reader st' = Outer
  ∧ trace st'
    = trace st ++ mjoin (replicate (length es) [SerialOpen false; Sleep 1000])
  ∧ reader (serial_reader e st') = Inner.
Proof.
  intros Hsim Hpc Hall Hopen. revert st Hsim Hpc.
  induction Hall as [|e0 es He0 _ IH]; intros st Hsim Hpc.
  { simpl. rewrite app_nil_r. do 4 (split; [done|]). split; [done|].
    by rewrite serial_reader_open. }
  simpl.
  assert (serial_reader e0 st
          = reader_except (emit [SerialOpen false] st)) as ->.
  { unfold serial_reader. by rewrite Hsim, Hpc, He0. }
  destruct (IH (reader_except (emit [SerialOpen false] st)) Hsim eq_refl)
    as (-> & -> & -> & -> & -> & ->).
  do 4 (split; [done|]). split; [|done].
  simpl. by rewrite <-!app_assoc.
Qed.
End ReaderMore.

(** * Properties of the simulation *)

Section SimulationMore.
Context `{Parsers} `{Config}.
Implicit Types (e : env) (st : world).



(** X16: when a live generator task runs with the flag clear, or after its
    15 s are over, it stores and sends nothing, leaves [latest_sample]
    alone, clears the flag and finishes; a finished task does nothing when
    it is scheduled again. *)
Theorem simulation_exit e i st rn start_time :
  tasks st !! i = Some rn → live rn = true →
  simulation_mode st = false
  ∨ (rn = Sleeping start_time
     ∧ simulation_duration_ms ≤ now_ms e - start_time) →
  let st' := simulation_runner e i st in
  simulation_mode st' = false
  ∧ tasks st' !! i = Some Returned
  ∧ samples st' = samples st
  ∧ latest_sample st' = latest_sample st
  ∧ clients st' = clients st
  ∧ trace st' = trace st
  ∧ ∀ e', simulation_runner e' i st' = st'.
Proof.
  intros Hi Hlive Hexit. simpl.
  assert (simulation_runner e i st
          = set_simulation_mode false (set_task i Returned st)) as ->.
  { unfold simulation_runner, simulation_loop. rewrite Hi.
    destruct rn as [|t0| |]; try done.
    - destruct Hexit as [->|[? _]]; done.
    - destruct Hexit as [->|[[= ->] Hover]]; [done|].
      destruct (simulation_mode st); [|done].
      by rewrite bool_decide_true. }
  assert (<[i:=Returned]> (tasks st) !! i = Some Returned) as Hret.
  { apply list_lookup_insert_eq. by eapply lookup_lt_Some. }
  do 6 (split; [done|]).
  intros e'. unfold simulation_runner. simpl. by rewrite Hret.
Qed.

(** X17: [stop_simulation] followed by [start_simulation] before the old
    generator has run again leaves the old task alive beside the new one:
    the flag is set again, and the old task goes on producing samples. *)
Theorem restart_keeps_old_generator e i st start_time :
  simulation_mode st = true →
  tasks st !! i = Some (Sleeping start_time) →
  now_ms e - start_time < simulation_duration_ms →
  let st2 := (start_simulation (stop_simulation st).1).1 in
  simulation_mode st2 = true
  ∧ tasks st2 !! i = Some (Sleeping start_time)
  ∧ tasks st2 !! length (tasks st) = Some Created
  ∧ i ≠ length (tasks st)
  ∧ latest_sample (simulation_runner e i st2)
    = simulated_sample (now_ms e) (reading e).
Proof.
  intros Hsim Hi Hlt.
  assert ((start_simulation (stop_simulation st).1).1
          = create_task (set_simulation_mode true
              (stop_simulation st).1)) as ->.
  { unfold start_simulation, stop_simulation. rewrite Hsim. simpl.
    by destruct (simulation_task st). }
  assert (tasks (stop_simulation st).1 = tasks st) as Htasks.
  { unfold stop_simulation. rewrite Hsim. simpl.
    by destruct (simulation_task st). }
  pose proof (lookup_lt_Some _ _ _ Hi) as Hlen.
  simpl. rewrite Htasks.
  split; [done|]. split; [by rewrite lookup_app_l|].
  split; [by apply list_lookup_middle|].
  split; [lia|].
  unfold simulation_runner, simulation_loop. simpl.
  rewrite Htasks, lookup_app_l, Hi by done.
  rewrite bool_decide_false by lia.
  replace (now_ms e - start_time + start_time) with (now_ms e) by lia.
  simpl. destruct (insert_sample _ _ _) as [tbl|]; [|done]. simpl.
  match goal with
  | |- context [broadcast ?nt ?s ?st0] =>
      by destruct (broadcast_frame nt s st0) as (_ & _ & _ & -> & _)
  end.
Qed.

(** X18: the flag is shared by all generator tasks: when one task reaches
    the end of its 15 s it clears the flag, and any other live generator,
    however recent, finishes at its next tick without producing a
    sample. *)
Theorem expiry_stops_other_generators e e' i j st start_time rn :
  simulation_mode st = true →
  tasks st !! i = Some (Sleeping start_time) →
  simulation_duration_ms ≤ now_ms e - start_time →
  i ≠ j → tasks st !! j = Some rn → live rn = true →
  let st' := simulation_runner e' j (simulation_runner e i st) in
  simulation_mode st' = false
  ∧ tasks st' !! j = Some Returned
  ∧ samples st' = samples st
  ∧ latest_sample st' = latest_sample st
  ∧ trace st' = trace st.
Proof.
  intros Hsim Hi Hover Hne Hj Hlive. simpl.
  assert (simulation_runner e i st
          = set_simulation_mode false (set_task i Returned st)) as ->.
  { unfold simulation_runner, simulation_loop. rewrite Hi, Hsim.
    by rewrite bool_decide_true. }
  assert (<[i:=Returned]> (tasks st) !! j = Some rn) as Hj'.
  { by rewrite list_lookup_insert_ne. }
  unfold simulation_runner, simulation_loop. simpl. rewrite Hj'.
  assert (<[j:=Returned]> (<[i:=Returned]> (tasks st)) !! j = Some Returned)
    as Hret.
  { apply list_lookup_insert_eq. rewrite length_insert.
    by eapply lookup_lt_Some. }
  by destruct rn.
Qed.
End SimulationMore.

(** * The pipeline from a raw record to a row *)

Section PipelineFacts.
Context `{Parsers} `{Config}.

(** X19: a sample returned by [enrich_sample] carries the raw values of
    [V], [A], [Ah], [mph], [lat] and [lon] as they came ([None] for a
    missing key), the current even when the torque was derived from it; its
    timestamp is the clock when the raw one is missing or [None], and a raw
    integer timestamp is kept as it is, [0] included. *)
Theorem enrich_sample_passthrough now raw s :
  enrich_sample now raw = Ok s →
  Forall (λ k, s !! k = Some (get raw k)) ["V"; "A"; "Ah"; "mph"; "lat"; "lon"]
  ∧ (get raw "t" = PNone → s !! "t_ms" = Some (PInt now))
  ∧ (∀ n, get raw "t" = PInt n → s !! "t_ms" = Some (PInt n)).
Proof.
  intros (t & l & tq & Ht & _ & _ & ->)%enrich_sample_inv.
  split; [by repeat constructor|].
  change (_ !! "t_ms") with (Some (PInt t)).
  split.
  - intros Hnone. rewrite Hnone in Ht. simpl in Ht. congruence.
  - intros n Hn. rewrite Hn in Ht. simpl in Ht. congruence.
Qed.


End PipelineFacts.

(** * The further properties at concrete inputs *)


Lemma insert_sample_appends_witness :
  @insert_sample ascii_parsers true sample_scenario [] = Ok tbl_one
  ∧ ∃ r, tbl_one = [] ++ [r] ∧ row_lap r = 3 ∧ row_t_ms r = 1000.
Proof.
  assert (@insert_sample ascii_parsers true sample_scenario [] = Ok tbl_one)
    as Hins by (by vm_compute).
  split; [exact Hins|].
  destruct (@insert_sample_appends ascii_parsers true sample_scenario []
              tbl_one Hins) as (r & Hr & Ht & Hl & _).
  assert (@int ascii_parsers (get_or sample_scenario "t_ms" (PInt 0))
          = Ok 1000) as Ht' by (by vm_compute).
  assert (@int ascii_parsers (get_or sample_scenario "lap" (PInt 0))
          = Ok 3) as Hl' by (by vm_compute).
  rewrite Ht' in Ht. rewrite Hl' in Hl.
  injection Ht as Ht. injection Hl as Hl.
  exists r. split; [exact Hr|]. by split.
Defined.

Lemma laps_after_insert_witness :
  @insert_sample ascii_parsers true sample_scenario [] = Ok tbl_one
  ∧ get_latest_lap tbl_one = 3.
Proof.
  assert (@insert_sample ascii_parsers true sample_scenario [] = Ok tbl_one)
    as Hins by (by vm_compute).
  split; [exact Hins|].
  assert (@int ascii_parsers (get_or sample_scenario "lap" (PInt 0)) = Ok 3)
    as Hlap by (by vm_compute).
  exact (proj2 (@laps_after_insert ascii_parsers true sample_scenario []
                  tbl_one 3 Hins Hlap)).
Defined.




Lemma bad_record_drops_connection_witness :
  incoming env_array = Json (PList [])
  ∧ reader (@serial_reader ascii_parsers default_config env_array st_live)
    = Outer
  ∧ samples (@serial_reader ascii_parsers default_config env_array st_live)
    = samples st_live.
Proof.
  split; [reflexivity|].
  destruct (@bad_record_drops_connection ascii_parsers default_config
              env_array st_live (PList []) eq_refl eq_refl eq_refl I)
    as (Hs & _ & _ & _ & Hpc & _).
  by split.
Defined.

Lemma port_retry_is_unconditional_witness :
  port_ok env_unplugged = false
  ∧ trace (@poll ascii_parsers default_config
             [env_unplugged; env_unplugged] (init []))
    = [SerialOpen false; Sleep 1000; SerialOpen false; Sleep 1000]
  ∧ reader (@serial_reader ascii_parsers default_config env_up
              (@poll ascii_parsers default_config
                 [env_unplugged; env_unplugged] (init [])))
    = Inner.
Proof.
  split; [reflexivity|].
  assert (Forall (λ e, port_ok e = false) [env_unplugged; env_unplugged])
    as Hall by (by repeat constructor).
  destruct (@port_retry_is_unconditional ascii_parsers default_config
              [env_unplugged; env_unplugged] env_up (init [])
              eq_refl eq_refl Hall eq_refl)
    as (_ & _ & _ & _ & Htr & Hpc).
  by split.
Defined.


Lemma simulation_exit_witness :
  simulation_mode st_stopped = false
  ∧ tasks st_stopped !! 0%nat = Some (Sleeping 500)
  ∧ tasks (@simulation_runner ascii_parsers env_up 0 st_stopped) !! 0%nat
    = Some Returned
  ∧ samples (@simulation_runner ascii_parsers env_up 0 st_stopped)
    = samples st_stopped.
Proof.
  split; [reflexivity|]. split; [reflexivity|].
  destruct (@simulation_exit ascii_parsers env_up 0%nat st_stopped
              (Sleeping 500) 500 eq_refl eq_refl (or_introl eq_refl))
    as (_ & Hret & Hs & _).
  by split.
Defined.

Lemma restart_keeps_old_generator_witness :
  simulation_mode st_ticking = true
  ∧ tasks st_restarted = [Sleeping 500; Created]
  ∧ latest_sample (@simulation_runner ascii_parsers env_up 0 st_restarted)
    = simulated_sample 1000 still.
Proof.
  split; [reflexivity|]. split; [reflexivity|].
  assert (now_ms env_up - 500 < simulation_duration_ms) as Hlt
    by (by vm_compute).
  exact (proj2 (proj2 (proj2 (proj2
    (@restart_keeps_old_generator ascii_parsers env_up 0%nat st_ticking 500
       eq_refl eq_refl Hlt))))).
Defined.

Lemma expiry_stops_other_generators_witness :
  tasks st_restarted = [Sleeping 500; Created]
  ∧ simulation_duration_ms ≤ now_ms env_late - 500
  ∧ tasks (@simulation_runner ascii_parsers env_up 1
             (@simulation_runner ascii_parsers env_late 0 st_restarted))
      !! 1%nat = Some Returned
  ∧ simulation_mode
      (@simulation_runner ascii_parsers env_up 1
         (@simulation_runner ascii_parsers env_late 0 st_restarted))
    = false.
Proof.
  split; [reflexivity|].
  assert (simulation_duration_ms ≤ now_ms env_late - 500) as Hover
    by (by vm_compute).
  split; [exact Hover|].
  assert (0%nat ≠ 1%nat) as Hne by done.
  destruct (@expiry_stops_other_generators ascii_parsers env_late env_up
              0%nat 1%nat st_restarted 500 Created
              eq_refl eq_refl Hover Hne eq_refl eq_refl)
    as (Hmode & Hret & _).
  by split.
Defined.

Lemma enrich_sample_passthrough_witness :
  @enrich_sample ascii_parsers default_config 1000 raw_scenario
    = Ok sample_scenario
  ∧ sample_scenario !! "A" = Some (PInt 50)
  ∧ sample_scenario !! "t_ms" = Some (PInt 1000).
Proof.
  assert (@enrich_sample ascii_parsers default_config 1000 raw_scenario
          = Ok sample_scenario) as Hs by (by vm_compute).
  split; [exact Hs|].
  destruct (@enrich_sample_passthrough ascii_parsers default_config
              1000 raw_scenario sample_scenario Hs) as (Hall & Ht & _).
  split; [|by apply Ht].
  rewrite Forall_forall in Hall.
  rewrite (Hall "A"); [done|]. apply list_elem_of_further, list_elem_of_here.
Defined.
